(** * DemCoin game-theory simulator: a shallow embedding of [simulator.py]

    The Python class [DemCoinSimulator] is embedded method by method.

    - Numbers.  Every real-valued quantity of the program is a Python
      [float], i.e. an IEEE-754 binary64 number.  The embedding is written
      once over an interface [Arith] of the arithmetic the program uses and
      instantiated twice: at Rocq's primitive [float] (binary64, the
      arithmetic Python executes, with NaN and infinities) and at [Q] (exact
      rationals, the "real-valued" reading of the specification).  Integers
      ([num_citizens], counts, loop indices) are [nat].
    - Exceptions.  A method returns an [outcome]: a value or the exception
      it raised.  Python's [/] raises [ZeroDivisionError] on a zero divisor
      and list indexing raises [IndexError] out of range.
    - State.  [simulate_one_round] only reads [self]; [optimize_parameters]
      assigns two attributes of [self] and is embedded by explicit state
      passing: it returns the final object next to its outcome. *)

From Stdlib Require Import ZArith QArith Qabs Lqa Lia Floats Uint63.
From stdpp Require Import base list.

Set Warnings "-inexact-float".
Local Open Scope nat_scope.

(** ** The arithmetic interface *)

Class Arith (R : Type) := {
  r_of_int : nat -> R;          (* an [int] used where a float is expected *)
  lit_0_3 : R;                  (* the literal 0.3 *)
  lit_0_6 : R;                  (* the literal 0.6 *)
  lit_0_001 : R;                (* the literal 0.001 *)
  radd : R -> R -> R;
  rsub : R -> R -> R;
  rmul : R -> R -> R;
  rdiv : R -> R -> R;           (* division by a divisor known to be non-zero *)
  rabs : R -> R;
  rltb : R -> R -> bool;        (* x < y *)
  rleb : R -> R -> bool;        (* x <= y *)
  reqb : R -> R -> bool         (* x == y *)
}.

Declare Scope arith_scope.
Delimit Scope arith_scope with A.
Infix "+" := radd : arith_scope.
Infix "-" := rsub : arith_scope.
Infix "*" := rmul : arith_scope.
Infix "/" := rdiv : arith_scope.
Infix "<?" := rltb : arith_scope.
Infix "<=?" := rleb : arith_scope.
Infix "=?" := reqb : arith_scope.

(** The two facts about comparisons and division that hold in both
    arithmetics and that the structural results below rely on. *)
Class ArithLaws (R : Type) `{Arith R} : Prop := {
  reqb_not_rltb : forall x y : R, reqb x y = true -> rltb y x = false;
  rdiv_0_1 : rdiv (r_of_int 0) (r_of_int 1) = r_of_int 0
}.

(** Python's arithmetic: binary64.  An [int] below 2^53 converts exactly. *)
#[export] Instance float_arith : Arith float := {
  r_of_int n := PrimFloat.of_uint63 (Uint63.of_Z (Z.of_nat n));
  lit_0_3 := 0.3%float;
  lit_0_6 := 0.6%float;
  lit_0_001 := 0.001%float;
  radd := PrimFloat.add;
  rsub := PrimFloat.sub;
  rmul := PrimFloat.mul;
  rdiv := PrimFloat.div;
  rabs := PrimFloat.abs;
  rltb := PrimFloat.ltb;
  rleb := PrimFloat.leb;
  reqb := PrimFloat.eqb
}.

(** Exact arithmetic: the rationals. *)
Definition Qltb (x y : Q) : bool := negb (Qle_bool y x).

#[export] Instance Q_arith : Arith Q := {
  r_of_int n := inject_Z (Z.of_nat n);
  lit_0_3 := (3 # 10)%Q;
  lit_0_6 := (6 # 10)%Q;
  lit_0_001 := (1 # 1000)%Q;
  radd := Qplus;
  rsub := Qminus;
  rmul := Qmult;
  rdiv := Qdiv;
  rabs := Qabs;
  rltb := Qltb;
  rleb := Qle_bool;
  reqb := Qeq_bool
}.

(** ** Exceptions *)

Inductive exn : Set :=
  | ZeroDivisionError
  | IndexError
  | UnboundLocalError.

Inductive outcome (A : Type) : Type :=
  | Ok (a : A)
  | Raised (e : exn).
Arguments Ok {A} a.
Arguments Raised {A} e.

#[export] Instance outcome_ret : MRet outcome := fun A a => Ok a.
#[export] Instance outcome_bind : MBind outcome := fun A B f m =>
  match m with
  | Ok a => f a
  | Raised e => Raised e
  end.

(** ** The simulator *)

Section Simulator.
Context {R : Type} `{Arith R}.

(** One entry of [self.citizens]: the dict with keys ['id'], ['skill'],
    ['time_value'] and ['civic_interest']. *)
Record Citizen := {
  citizen_id : nat;
  skill : R;
  time_value : R;
  civic_interest : R
}.

(** The attributes of a [DemCoinSimulator] object. *)
Record DemCoinSimulator := {
  num_citizens : nat;
  demcoin_per_hour : R;
  success_bonus : R;
  time_cost : R;
  quality_threshold : R;
  citizens : list Citizen
}.

(** The dict returned by [simulate_one_round]. *)
Record RoundResult := {
  participation_rate : R;
  num_participating : nat;
  avg_quality : R;
  converged_iteration : nat
}.

(** [_initialize_citizens]: [random.uniform] is library code; [draw i] is
    the triple it returns for citizen [i], in call order. *)
Definition _initialize_citizens (n : nat) (draw : nat -> R * R * R) : list Citizen :=
  map (fun i => let '(s, t, c) := draw i in
                {| citizen_id := i; skill := s; time_value := t; civic_interest := c |})
      (seq 0 n).

(** [__init__] *)
Definition __init__ (num_citizens : nat) (demcoin_per_hour success_bonus time_cost
    quality_threshold : R) (draw : nat -> R * R * R) : DemCoinSimulator :=
  {| num_citizens := num_citizens;
     demcoin_per_hour := demcoin_per_hour;
     success_bonus := success_bonus;
     time_cost := time_cost;
     quality_threshold := quality_threshold;
     citizens := _initialize_citizens num_citizens draw |}.

Definition calculate_utility_study (self : DemCoinSimulator) (citizen : Citizen)
    (participation_rate : R) : R :=
  let quality_score := (skill citizen * r_of_int 8)%A in
  let immediate_reward :=
    if (quality_threshold self <=? quality_score)%A
    then (demcoin_per_hour self * time_cost self)%A
    else r_of_int 0 in
  let prob_success := (lit_0_3 + (participation_rate * lit_0_6))%A in
  let expected_bonus := (prob_success * success_bonus self)%A in
  let time_cost_euros := (time_value citizen * time_cost self)%A in
  let total_utility := (immediate_reward + expected_bonus - time_cost_euros)%A in
  (total_utility + civic_interest citizen * r_of_int 20)%A.

Definition calculate_utility_ignore (self : DemCoinSimulator) (citizen : Citizen) : R :=
  r_of_int 0.

(** [sum(participating)]: the number of [True] entries. *)
Fixpoint sum_bool (l : list bool) : nat :=
  match l with
  | [] => 0
  | b :: l' => Nat.b2n b + sum_bool l'
  end.

(** [a / b] on two ints. *)
Definition int_truediv (a b : nat) : outcome R :=
  match b with
  | 0 => Raised ZeroDivisionError
  | S _ => Ok (r_of_int a / r_of_int b)%A
  end.

(** [x / b] with [b] an int. *)
Definition truediv (x : R) (b : nat) : outcome R :=
  match b with
  | 0 => Raised ZeroDivisionError
  | S _ => Ok (x / r_of_int b)%A
  end.

(** The inner loop [for i, citizen in enumerate(self.citizens)], from index
    [i] on.  [participation_rate] is not assigned in its body. *)
Fixpoint for_citizens (self : DemCoinSimulator) (participation_rate : R) (i : nat)
    (cs : list Citizen) (participating : list bool) (changed : bool)
    : outcome (list bool * bool) :=
  match cs with
  | [] => Ok (participating, changed)
  | citizen :: cs' =>
      let utility_study := calculate_utility_study self citizen participation_rate in
      let utility_ignore := calculate_utility_ignore self citizen in
      let should_participate := (utility_ignore <? utility_study)%A in
      match participating !! i with
      | None => Raised IndexError
      | Some p =>
          if negb (Bool.eqb should_participate p)
          then for_citizens self participation_rate (S i) cs'
                 (<[i:=should_participate]> participating) true
          else for_citizens self participation_rate (S i) cs' participating changed
      end
  end.

Definition max_iterations : nat := 20.

(** The outer loop [for iteration in range(max_iterations)] over the values
    [its] still to come.  [iteration] is the loop variable: unbound before
    the first pass.  The result is the state of [participation_rate],
    [participating] and [iteration] when the loop is left. *)
Fixpoint for_iteration (self : DemCoinSimulator) (its : list nat)
    (iteration : option nat) (participation_rate : R) (participating : list bool)
    : outcome (R * list bool * option nat) :=
  match its with
  | [] => Ok (participation_rate, participating, iteration)
  | it :: its' =>
      '(participating, changed) ←
        for_citizens self participation_rate 0 (citizens self) participating false;
      new_rate ← int_truediv (sum_bool participating) (num_citizens self);
      if (rabs (new_rate - participation_rate) <? lit_0_001)%A
      then Ok (new_rate, participating, Some it)
      else for_iteration self its' (Some it) new_rate participating
  end.

(** [sum(citizen['skill'] * 8 for i, citizen in enumerate(self.citizens)
    if participating[i])], accumulated from left to right. *)
Fixpoint quality_sum (i : nat) (cs : list Citizen) (participating : list bool)
    (acc : R) : outcome R :=
  match cs with
  | [] => Ok acc
  | citizen :: cs' =>
      match participating !! i with
      | None => Raised IndexError
      | Some p =>
          quality_sum (S i) cs' participating
            (if p : bool then (acc + skill citizen * r_of_int 8)%A else acc)
      end
  end.

(** The solver proper: the state in which the iteration loop is left. *)
Definition equilibrium (self : DemCoinSimulator) : outcome (R * list bool * option nat) :=
  for_iteration self (seq 0 max_iterations) None (r_of_int 0)
    (replicate (num_citizens self) false).

Definition simulate_one_round (self : DemCoinSimulator) : outcome RoundResult :=
  '(participation_rate, participating, iteration) ← equilibrium self;
  let num_participating := sum_bool participating in
  total ← quality_sum 0 (citizens self) participating (r_of_int 0);
  avg_quality ← truediv total (Nat.max num_participating 1);
  match iteration with
  | None => Raised UnboundLocalError
  | Some iteration =>
      Ok {| participation_rate := (participation_rate * r_of_int 100)%A;
            num_participating := num_participating;
            avg_quality := avg_quality;
            converged_iteration := iteration + 1 |}
  end.

(** *** Reference notions used to state the results *)

(** Does [citizen] prefer to participate when the rate is [rate]? *)
Definition prefers_participation (self : DemCoinSimulator) (rate : R) (citizen : Citizen) : bool :=
  (calculate_utility_ignore self citizen <? calculate_utility_study self citizen rate)%A.

(** Every citizen's best response to one and the same rate. *)
Definition best_response (self : DemCoinSimulator) (rate : R) : list bool :=
  map (prefers_participation self rate) (citizens self).

(** The number of citizens whose utility of participating, at [rate],
    strictly exceeds the utility of ignoring. *)
Definition count_preferring (self : DemCoinSimulator) (rate : R) : nat :=
  sum_bool (best_response self rate).

(** The rate one pass produces from [rate]. *)
Definition next_rate (self : DemCoinSimulator) (rate : R) : R :=
  (r_of_int (count_preferring self rate) / r_of_int (num_citizens self))%A.

(** The test that ends the loop after a pass started from [rate]. *)
Definition stalled (self : DemCoinSimulator) (rate : R) : bool :=
  (rabs (next_rate self rate - rate) <? lit_0_001)%A.

(** The rate after [n] passes, had none of them stopped the loop. *)
Definition rate_after (self : DemCoinSimulator) (n : nat) : R :=
  Nat.iter n (next_rate self) (r_of_int 0).

(** The convergence test of pass number [n] (counted from 0). *)
Definition converged_at (self : DemCoinSimulator) (n : nat) : bool :=
  (rabs (rate_after self (S n) - rate_after self n) <? lit_0_001)%A.

(** The utility of participating as the specification words it. *)
Definition utility_participate_spec (self : DemCoinSimulator) (agent : Citizen)
    (participation_rate : R) : R :=
  let immediate_reward :=
    if (quality_threshold self <=? skill agent * r_of_int 8)%A
    then (demcoin_per_hour self * time_cost self)%A else r_of_int 0 in
  (immediate_reward + (lit_0_3 + participation_rate * lit_0_6) * success_bonus self
   - time_value agent * time_cost self + civic_interest agent * r_of_int 20)%A.

(** [sum(citizen['skill'] * 8 ...)] over the citizens marked in [marks]. *)
Fixpoint quality_total (cs : list Citizen) (marks : list bool) (acc : R) : R :=
  match cs, marks with
  | citizen :: cs', p :: marks' =>
      quality_total cs' marks' (if p then (acc + skill citizen * r_of_int 8)%A else acc)
  | _, _ => acc
  end.

(** The object with two attributes reassigned. *)
Definition set_incentives (self : DemCoinSimulator) (demcoin_rate bonus : R) : DemCoinSimulator :=
  {| num_citizens := num_citizens self;
     demcoin_per_hour := demcoin_rate;
     success_bonus := bonus;
     time_cost := time_cost self;
     quality_threshold := quality_threshold self;
     citizens := citizens self |}.


End Simulator.

Arguments Citizen R : clear implicits.
Arguments DemCoinSimulator R : clear implicits.
Arguments RoundResult R : clear implicits.

(** ** The parameter optimizer

    [optimize_parameters] seeds its running maximum with [-float('inf')],
    which exists in binary64 only: the optimizer is embedded at [float]. *)

(** The dict kept in [best_params]. *)
Record BestParams := {
  bp_demcoin_per_hour : float;
  bp_success_bonus : float;
  bp_result : RoundResult float
}.

Definition demcoin_rates : list float := [10; 15; 20; 25]%float.
Definition bonuses : list float := [50; 100; 150; 200]%float.

(** [score], from the result of one run under [demcoin_rate]. *)
Definition score_of (self : DemCoinSimulator float) (demcoin_rate : float)
    (result : RoundResult float) : float :=
  let cost := (r_of_int (num_participating result) * time_cost self * demcoin_rate)%A in
  (participation_rate result * avg_quality result - cost / r_of_int 1000)%A.

(** The inner loop [for bonus in [50, 100, 150, 200]], over the values [bs]
    still to come. *)
Fixpoint for_bonus (demcoin_rate : float) (bs : list float) (self : DemCoinSimulator float)
    (best_params : option BestParams) (best_score : float)
    : outcome (option BestParams * float) * DemCoinSimulator float :=
  match bs with
  | [] => (Ok (best_params, best_score), self)
  | bonus :: bs' =>
      let self := set_incentives self demcoin_rate bonus in
      match simulate_one_round self with
      | Raised e => (Raised e, self)
      | Ok result =>
          let score := score_of self demcoin_rate result in
          if (best_score <? score)%A
          then for_bonus demcoin_rate bs' self
                 (Some {| bp_demcoin_per_hour := demcoin_rate;
                          bp_success_bonus := bonus;
                          bp_result := result |}) score
          else for_bonus demcoin_rate bs' self best_params best_score
      end
  end.

(** The outer loop [for demcoin_rate in [10, 15, 20, 25]]. *)
Fixpoint for_demcoin_rate (rates : list float) (self : DemCoinSimulator float)
    (best_params : option BestParams) (best_score : float)
    : outcome (option BestParams * float) * DemCoinSimulator float :=
  match rates with
  | [] => (Ok (best_params, best_score), self)
  | demcoin_rate :: rates' =>
      match for_bonus demcoin_rate bonuses self best_params best_score with
      | (Raised e, self) => (Raised e, self)
      | (Ok (best_params, best_score), self) =>
          for_demcoin_rate rates' self best_params best_score
      end
  end.

(** The method returns [best_params] ([None] when nothing replaced it) and
    leaves [self] as the loops left it. *)
Definition optimize_parameters (self : DemCoinSimulator float)
    : outcome (option BestParams) * DemCoinSimulator float :=
  match for_demcoin_rate demcoin_rates self None neg_infinity with
  | (Ok (best_params, _), self) => (Ok best_params, self)
  | (Raised e, self) => (Raised e, self)
  end.


(** The 16 grid points in the order the loops visit them. *)
Definition grid : list (float * float) :=
  rate ← demcoin_rates; bonus ← bonuses; [(rate, bonus)].

(** The two nested loops as one loop over the grid points [ps] still to
    come: [self] is the object the sweep started from, [current] the object
    as the last assignment left it. *)
Fixpoint sweep (self : DemCoinSimulator float) (ps : list (float * float))
    (current : DemCoinSimulator float) (best_params : option BestParams)
    (best_score : float)
    : outcome (option BestParams * float) * DemCoinSimulator float :=
  match ps with
  | [] => (Ok (best_params, best_score), current)
  | (demcoin_rate, bonus) :: ps' =>
      let current := set_incentives self demcoin_rate bonus in
      match simulate_one_round current with
      | Raised e => (Raised e, current)
      | Ok result =>
          let score := score_of self demcoin_rate result in
          if (best_score <? score)%A
          then sweep self ps' current
                 (Some {| bp_demcoin_per_hour := demcoin_rate;
                          bp_success_bonus := bonus;
                          bp_result := result |}) score
          else sweep self ps' current best_params best_score
      end
  end.


(** [current] differs from [self] in the two swept attributes at most. *)
Definition same_population (current self : DemCoinSimulator float) : Prop :=
  num_citizens current = num_citizens self /\
  time_cost current = time_cost self /\
  quality_threshold current = quality_threshold self /\
  citizens current = citizens self.


(** ** Concrete populations *)

(** 1001 citizens under the default incentives: citizen 0 always prefers to
    participate, citizen 1 only once the rate is positive, the others never. *)
Definition near_fixed_point : DemCoinSimulator float :=
  __init__ (R := float) 1001 15%float 100%float 3%float 7%float
    (fun i => if i =? 0 then (1, 10, 0)%float
              else if i =? 1 then (1, 25.01, 0)%float
              else (1, 50, 0)%float).

(** One citizen who always prefers to participate. *)
Definition lone_participant : DemCoinSimulator float :=
  __init__ (R := float) 1 15%float 100%float 3%float 7%float (fun _ => (1, 10, 0))%float.




(** ** Further notions and populations *)

Section FurtherNotions.
Context {R : Type} `{Arith R}.

(** An assignment for the population followed by the entries of
    [participating] that no citizen indexes: they are created [False] and
    never written. *)
Definition padded (self : DemCoinSimulator R) (marks : list bool) : list bool :=
  marks ++ replicate (num_citizens self - length (citizens self)) false.


End FurtherNotions.

(** An object whose [num_citizens] was set below the size of its population. *)
Definition outgrown : DemCoinSimulator float :=
  {| num_citizens := 1;
     demcoin_per_hour := 15%float;
     success_bonus := 100%float;
     time_cost := 3%float;
     quality_threshold := 7%float;
     citizens := _initialize_citizens 2 (fun _ => (1, 10, 0))%float |}.

(** An object whose [num_citizens] was set above the size of its population. *)
Definition oversized : DemCoinSimulator float :=
  {| num_citizens := 4;
     demcoin_per_hour := 15%float;
     success_bonus := 100%float;
     time_cost := 3%float;
     quality_threshold := 7%float;
     citizens := _initialize_citizens 2 (fun _ => (1, 10, 0))%float |}.

(** Two citizens whose quality, 4, is below the threshold 7. *)
Definition below_gate : DemCoinSimulator float :=
  __init__ (R := float) 2 15%float 100%float 3%float 7%float
    (fun _ => (0.5, 10, 1))%float.

(** The object built for [num_citizens = 0]. *)
Definition empty_population : DemCoinSimulator float :=
  __init__ (R := float) 0 15%float 100%float 3%float 7%float
    (fun _ => (1, 10, 0))%float.


(** One citizen and a [time_cost] that is not a number. *)
Definition nan_time_cost : DemCoinSimulator float :=
  __init__ (R := float) 1 15%float 100%float nan 7%float (fun _ => (1, 10, 0))%float.

(** * Results *)

(** ** The loops, in closed form *)

Section Loops.
Context {R : Type} `{Arith R}.
Implicit Types (self : DemCoinSimulator R) (rate : R) (cs : list (Citizen R)).

Lemma sum_bool_le (l : list bool) : sum_bool l <= length l.
Proof. induction l as [|[] l IH]; simpl; lia. Qed.

Lemma sum_bool_replicate_false n : sum_bool (replicate n false) = 0.
Proof. induction n; simpl; auto. Qed.

(** One pass over the citizens from index [i]: entries below [i] are kept,
    the others become the best responses to [rate]. *)
Lemma for_citizens_from self rate cs :
  forall i participating changed,
    length participating = i + length cs ->
    exists changed',
      for_citizens self rate i cs participating changed
      = Ok (take i participating ++ map (prefers_participation self rate) cs, changed').
Proof.
  induction cs as [|c cs IH]; intros i p ch Hlen; simpl in *.
  - exists ch. rewrite app_nil_r, take_ge by lia. reflexivity.
  - destruct (lookup_lt_is_Some_2 p i ltac:(lia)) as [b Hb].
    rewrite Hb. fold (prefers_participation self rate c).
    set (should := prefers_participation self rate c).
    destruct (negb (Bool.eqb should b)) eqn:E.
    + destruct (IH (S i) (<[i:=should]> p) true) as [ch' ->].
      { rewrite length_insert. lia. }
      exists ch'. f_equal. f_equal.
      rewrite (take_S_r (<[i:=should]> p) i should)
        by (apply list_lookup_insert_eq; lia).
      rewrite take_insert_ge by lia. rewrite <- app_assoc. reflexivity.
    + apply negb_false_iff, Bool.eqb_prop in E. subst b.
      destruct (IH (S i) p ch ltac:(lia)) as [ch' ->].
      exists ch'. f_equal. f_equal.
      rewrite (take_S_r p i should Hb), <- app_assoc. reflexivity.
Qed.

(** A whole pass replaces the assignment by the best response to the rate
    the pass started from. *)
Lemma for_citizens_pass self rate participating :
  length participating = length (citizens self) ->
  exists changed,
    for_citizens self rate 0 (citizens self) participating false
    = Ok (best_response self rate, changed).
Proof.
  intros Hlen.
  destruct (for_citizens_from self rate (citizens self) 0 participating false
              ltac:(lia)) as [ch Hch].
  exists ch. rewrite Hch, take_0. reflexivity.
Qed.

Lemma length_best_response self rate :
  length (best_response self rate) = length (citizens self).
Proof. unfold best_response. apply length_map. Qed.

Lemma count_preferring_le self rate :
  count_preferring self rate <= length (citizens self).
Proof.
  unfold count_preferring. rewrite <- (length_best_response self rate).
  apply sum_bool_le.
Qed.

Lemma converged_at_stalled self n :
  converged_at self n = stalled self (rate_after self n).
Proof. reflexivity. Qed.

(** The iteration loop over [n > 0] pending values: it leaves after pass
    [m < n], the first pass that meets the tolerance or else the last one,
    with the rate that pass computed and the assignment that pass made. *)
Lemma for_iteration_from self :
  length (citizens self) = num_citizens self ->
  0 < num_citizens self ->
  forall n start last rate participating,
    0 < n ->
    length participating = num_citizens self ->
    exists m,
      m < n /\
      for_iteration self (seq start n) last rate participating
      = Ok (Nat.iter (S m) (next_rate self) rate,
            best_response self (Nat.iter m (next_rate self) rate),
            Some (start + m)) /\
      (forall j, j < m -> stalled self (Nat.iter j (next_rate self) rate) = false) /\
      (S m < n -> stalled self (Nat.iter m (next_rate self) rate) = true).
Proof.
  intros Hcs Hpos. induction n as [|n IH]; intros start last rate p Hn Hlen; [lia|].
  simpl seq. simpl for_iteration.
  destruct (for_citizens_pass self rate p ltac:(congruence)) as [ch ->].
  simpl. unfold int_truediv. destruct (num_citizens self) as [|N] eqn:EN; [lia|].
  simpl. rewrite <- EN.
  change (r_of_int (sum_bool (best_response self rate)) / r_of_int (num_citizens self))%A
    with (next_rate self rate).
  fold (stalled self rate).
  destruct (stalled self rate) eqn:Est.
  - exists 0. rewrite Nat.add_0_r.
    split; [lia|]. split; [reflexivity|]. split; [intros; lia|auto].
  - destruct n as [|n'].
    + exists 0. rewrite Nat.add_0_r.
      split; [lia|]. split; [reflexivity|]. split; intros; lia.
    + destruct (IH (S start) (Some start) (next_rate self rate) (best_response self rate))
        as (m & Hm & Hrun & Hbefore & Hat); [lia| |].
      { rewrite length_best_response. congruence. }
      exists (S m). split; [lia|]. split; [|split].
      * rewrite Hrun.
        rewrite <- !(Nat.iter_succ_r _ (next_rate self)), Nat.add_succ_r. reflexivity.
      * intros [|j] Hj; [exact Est|].
        rewrite Nat.iter_succ_r. apply Hbefore. lia.
      * intros Hlt. rewrite Nat.iter_succ_r. apply Hat. lia.
Qed.

(** The quality sum reads exactly the marks it is given. *)
Lemma quality_sum_from cs :
  forall i participating acc,
    length participating = i + length cs ->
    quality_sum i cs participating acc = Ok (quality_total cs (drop i participating) acc).
Proof.
  induction cs as [|c cs IH]; intros i p acc Hlen; simpl in *.
  - destruct (drop i p); reflexivity.
  - destruct (lookup_lt_is_Some_2 p i ltac:(lia)) as [b Hb].
    rewrite Hb, (drop_S _ _ _ Hb). simpl. apply IH. lia.
Qed.

(** The division of the quality sum never raises: its divisor is at least 1. *)
Lemma truediv_max (x : R) k :
  truediv x (Nat.max k 1) = Ok (x / r_of_int (Nat.max k 1))%A.
Proof. unfold truediv. destruct (Nat.max k 1) eqn:E; [lia|reflexivity]. Qed.

(** [simulate_one_round] on a well-formed, non-empty population. *)
Lemma simulate_one_round_closed self :
  length (citizens self) = num_citizens self ->
  0 < num_citizens self ->
  exists m,
    m < max_iterations /\
    equilibrium self
    = Ok (rate_after self (S m), best_response self (rate_after self m), Some m) /\
    simulate_one_round self
    = Ok {| participation_rate := (rate_after self (S m) * r_of_int 100)%A;
            num_participating := count_preferring self (rate_after self m);
            avg_quality :=
              (quality_total (citizens self) (best_response self (rate_after self m))
                 (r_of_int 0)
               / r_of_int (Nat.max (count_preferring self (rate_after self m)) 1))%A;
            converged_iteration := S m |} /\
    (forall j, j < m -> converged_at self j = false) /\
    (S m < max_iterations -> converged_at self m = true).
Proof.
  intros Hcs Hpos.
  destruct (for_iteration_from self Hcs Hpos max_iterations 0 None (r_of_int 0)
              (replicate (num_citizens self) false))
    as (m & Hm & Hrun & Hbefore & Hat).
  { unfold max_iterations. lia. }
  { apply length_replicate. }
  exists m. split; [exact Hm|]. split; [exact Hrun|]. split; [|split].
  - unfold simulate_one_round, equilibrium. rewrite Hrun. simpl.
    rewrite quality_sum_from by (rewrite length_best_response; lia).
    simpl. rewrite drop_0, truediv_max. simpl.
    rewrite Nat.add_1_r. reflexivity.
  - intros j Hj. rewrite converged_at_stalled. apply Hbefore, Hj.
  - intros Hlt. rewrite converged_at_stalled. apply Hat, Hlt.
Qed.

End Loops.

(** ** The utility model and the solver, in any arithmetic *)

Section Solver.
Context {R : Type} `{Arith R}.
Implicit Types (self : DemCoinSimulator R) (rate : R).

(** C3.  For every agent and every participation rate,
    [calculate_utility_study] returns
    [immediate_reward + (0.3 + rate * 0.6) * success_bonus
     - time_value * time_cost + civic_interest * 20],
    where [immediate_reward] is [demcoin_per_hour * time_cost] if
    [skill * 8 >= quality_threshold] and [0] otherwise, and
    [calculate_utility_ignore] returns the constant [0]. *)
Theorem utility_model_formulas self (agent : Citizen R) rate :
  calculate_utility_study self agent rate
  = ((if (quality_threshold self <=? skill agent * r_of_int 8)%A
      then demcoin_per_hour self * time_cost self else r_of_int 0)
     + (lit_0_3 + rate * lit_0_6) * success_bonus self
     - time_value agent * time_cost self
     + civic_interest agent * r_of_int 20)%A
  /\ calculate_utility_study self agent rate = utility_participate_spec self agent rate
  /\ calculate_utility_ignore self agent = r_of_int 0.
Proof.
  unfold calculate_utility_study, utility_participate_spec, calculate_utility_ignore.
  repeat split.
Qed.

(** C1, amended.  On a non-empty population the count the solver reports is
    the number of agents who strictly prefer to participate at the rate the
    last executed pass started from; the rate it reports is that count
    divided by the population size, computed after the pass.  The count is
    the one of the reported rate whenever that last update left the rate
    unchanged. *)
Theorem num_participating_counts_last_pass self :
  length (citizens self) = num_citizens self ->
  0 < num_citizens self ->
  exists rate participating m result,
    equilibrium self = Ok (rate, participating, Some m) /\
    simulate_one_round self = Ok result /\
    converged_iteration result = S m /\
    participation_rate result = (rate * r_of_int 100)%A /\
    rate = rate_after self (S m) /\
    num_participating result = count_preferring self (rate_after self m) /\
    rate = (r_of_int (num_participating result) / r_of_int (num_citizens self))%A /\
    (rate_after self m = rate ->
     num_participating result = count_preferring self rate).
Proof.
  intros Hcs Hpos.
  destruct (simulate_one_round_closed self Hcs Hpos) as (m & _ & Heq & Hrun & _).
  eexists _, _, m, _. split; [exact Heq|]. split; [exact Hrun|]. simpl.
  repeat split. intros <-. reflexivity.
Qed.

(** C8.  On a non-empty population [simulate_one_round] returns, without
    raising, after [converged_iteration] passes, a number between 1 and
    [max_iterations] = 20.  It reports the rate computed by its last pass.
    No earlier pass met [|new_rate - old_rate| < 0.001], and if fewer than
    20 passes were made the last one met it. *)
Theorem simulate_one_round_stops_within_cap self :
  length (citizens self) = num_citizens self ->
  0 < num_citizens self ->
  exists result,
    simulate_one_round self = Ok result /\
    1 <= converged_iteration result <= max_iterations /\
    max_iterations = 20 /\
    participation_rate result
    = (rate_after self (converged_iteration result) * r_of_int 100)%A /\
    (forall j, S j < converged_iteration result -> converged_at self j = false) /\
    (converged_iteration result < max_iterations ->
     converged_at self (converged_iteration result - 1) = true).
Proof.
  intros Hcs Hpos.
  destruct (simulate_one_round_closed self Hcs Hpos) as (m & Hm & _ & Hrun & Hbefore & Hat).
  eexists. split; [exact Hrun|]. simpl.
  split; [lia|]. split; [reflexivity|]. split; [reflexivity|]. split.
  - intros j Hj. apply Hbefore. lia.
  - intros Hlt. rewrite Nat.sub_0_r. apply Hat, Hlt.
Qed.

Lemma quality_total_unmarked (cs : list (Citizen R)) :
  forall marks acc, sum_bool marks = 0 -> quality_total cs marks acc = acc.
Proof.
  induction cs as [|c cs IH]; intros [|[] marks] acc Hsum; simpl in *;
    try reflexivity; try discriminate.
  apply IH, Hsum.
Qed.

(** C10.  The constructor validates nothing: for [num_citizens = 0] it
    builds an object with an empty population, on which
    [simulate_one_round] raises [ZeroDivisionError]; for every positive
    population size the division by [num_citizens] yields a value and the
    round returns. *)
Theorem empty_population_raises (demcoin_per_hour success_bonus time_cost
    quality_threshold : R) (draw : nat -> R * R * R) :
  (citizens (__init__ 0 demcoin_per_hour success_bonus time_cost quality_threshold draw) = []
   /\ simulate_one_round
        (__init__ 0 demcoin_per_hour success_bonus time_cost quality_threshold draw)
      = Raised ZeroDivisionError)
  /\ (forall n k, 0 < n -> int_truediv k n = Ok (r_of_int k / r_of_int n)%A)
  /\ (forall n, 0 < n ->
      length (citizens (__init__ n demcoin_per_hour success_bonus time_cost
                          quality_threshold draw)) = n
      /\ exists result,
           simulate_one_round
             (__init__ n demcoin_per_hour success_bonus time_cost quality_threshold draw)
           = Ok result).
Proof.
  split; [split; reflexivity|]. split.
  - intros [|n] k Hn; [lia|reflexivity].
  - intros n Hn.
    assert (Hlen : length (citizens (__init__ n demcoin_per_hour success_bonus time_cost
                                       quality_threshold draw)) = n).
    { simpl. unfold _initialize_citizens. rewrite length_map, length_seq. reflexivity. }
    split; [exact Hlen|].
    destruct (simulate_one_round_closed _ Hlen Hn) as (m & _ & _ & Hrun & _).
    eexists. exact Hrun.
Qed.

Context `{!ArithLaws R}.


(** C9.  [avg_quality] is the sum of [skill * 8] over the agents marked as
    participating divided by their number, the divisor being raised to 1
    when nobody participates, in which case the average is 0; that division
    cannot raise. *)
Theorem avg_quality_floors_divisor self :
  length (citizens self) = num_citizens self ->
  0 < num_citizens self ->
  exists rate participating iteration result,
    equilibrium self = Ok (rate, participating, iteration) /\
    simulate_one_round self = Ok result /\
    num_participating result = sum_bool participating /\
    avg_quality result
    = (quality_total (citizens self) participating (r_of_int 0)
       / r_of_int (Nat.max (num_participating result) 1))%A /\
    (0 < num_participating result ->
     avg_quality result
     = (quality_total (citizens self) participating (r_of_int 0)
        / r_of_int (num_participating result))%A) /\
    (num_participating result = 0 -> avg_quality result = r_of_int 0) /\
    (forall (x : R) k, truediv x (Nat.max k 1) = Ok (x / r_of_int (Nat.max k 1))%A).
Proof.
  intros Hcs Hpos.
  destruct (simulate_one_round_closed self Hcs Hpos) as (m & _ & Heq & Hrun & _).
  eexists _, _, _, _. split; [exact Heq|]. split; [exact Hrun|]. simpl.
  split; [reflexivity|]. split; [reflexivity|]. split; [|split].
  - intros Hk. rewrite Nat.max_l by lia. reflexivity.
  - intros Hk. unfold count_preferring in Hk |- *.
    rewrite Hk, quality_total_unmarked by exact Hk. simpl. apply rdiv_0_1.
  - intros x k. apply truediv_max.
Qed.

End Solver.

(** ** The solver in exact arithmetic *)

Section Exact.
Implicit Types (self : DemCoinSimulator Q) (rate : Q) (c : Citizen Q).
Local Open Scope Q_scope.
























End Exact.

(** ** Comparisons of binary64 numbers *)

Section FloatOrder.
Import SpecFloat.

Ltac sf_cases :=
  repeat match goal with
  | x : spec_float |- _ => destruct x as [[]| []| |[] ? ?]
  end; simpl; try (intros; (discriminate || reflexivity || tauto)).

Ltac cmp_cases :=
  repeat match goal with
  | |- context [Z.compare ?a ?b] => destruct (Z.compare_spec a b)
  | |- context [Pos.compare_cont Eq ?a ?b] =>
      change (Pos.compare_cont Eq a b) with (Pos.compare a b);
      destruct (Pos.compare_spec a b)
  end; simpl; try (intros; (discriminate || reflexivity || lia)).

Lemma SFeqb_not_SFltb x y : SFeqb x y = true -> SFltb y x = false.
Proof. unfold SFeqb, SFltb. sf_cases; cmp_cases. Qed.





(** [x == y] excludes [y < x] (also for NaN, which equals nothing). *)
Lemma float_eqb_not_ltb (x y : float) :
  PrimFloat.eqb x y = true -> PrimFloat.ltb y x = false.
Proof. rewrite FloatAxioms.eqb_spec, FloatAxioms.ltb_spec. apply SFeqb_not_SFltb. Qed.





End FloatOrder.

#[export] Instance float_laws : ArithLaws float.
Proof.
  split.
  - exact float_eqb_not_ltb.
  - reflexivity.
Qed.

#[export] Instance Q_laws : ArithLaws Q.
Proof.
  split.
  - intros x y Heq. cbn [reqb rltb Q_arith] in *. unfold Qltb.
    apply Qeq_bool_iff in Heq. apply negb_false_iff, Qle_bool_iff.
    rewrite Heq. apply Qle_refl.
  - reflexivity.
Qed.

(** ** The optimizer *)

Ltac case_if :=
  match goal with
  | |- context [if ?c then _ else _] => destruct c eqn:?
  | H : context [if ?c then _ else _] |- _ => destruct c eqn:?
  end.

Section Optimizer.
Implicit Types (self current : DemCoinSimulator float) (ps : list (float * float)).

Lemma same_population_refl self : same_population self self.
Proof. repeat split. Qed.

Lemma same_population_set self d b : same_population (set_incentives self d b) self.
Proof. repeat split. Qed.

Lemma set_incentives_same current self d b :
  same_population current self ->
  set_incentives current d b = set_incentives self d b.
Proof. intros (Hn & Ht & Hq & Hc). unfold set_incentives. congruence. Qed.

Lemma sweep_same_population self ps :
  forall current bp sc o current',
    same_population current self ->
    sweep self ps current bp sc = (o, current') ->
    same_population current' self.
Proof.
  induction ps as [|[d b] ps IH]; intros current bp sc o current' Hsame Hrun; simpl in Hrun.
  - congruence.
  - destruct (simulate_one_round (set_incentives self d b)) as [result|e].
    + case_if; (eapply IH; [apply same_population_set|exact Hrun]).
    + injection Hrun as _ <-. apply same_population_set.
Qed.

Lemma for_bonus_sweep self d bs :
  forall current bp sc,
    same_population current self ->
    for_bonus d bs current bp sc = sweep self (map (pair d) bs) current bp sc.
Proof.
  induction bs as [|b bs IH]; intros current bp sc Hsame; simpl; [reflexivity|].
  rewrite (set_incentives_same current self d b Hsame).
  destruct (simulate_one_round (set_incentives self d b)) as [result|e]; [|reflexivity].
  change (score_of (set_incentives self d b) d result) with (score_of self d result).
  case_if; apply IH, same_population_set.
Qed.

Lemma sweep_app self ps qs :
  forall current bp sc,
    sweep self (ps ++ qs) current bp sc
    = match sweep self ps current bp sc with
      | (Ok (bp', sc'), current') => sweep self qs current' bp' sc'
      | (Raised e, current') => (Raised e, current')
      end.
Proof.
  induction ps as [|[d b] ps IH]; intros current bp sc; simpl; [reflexivity|].
  destruct (simulate_one_round (set_incentives self d b)) as [result|e]; [|reflexivity].
  case_if; apply IH.
Qed.

Lemma for_demcoin_rate_sweep self rates :
  forall current bp sc,
    same_population current self ->
    for_demcoin_rate rates current bp sc
    = sweep self (d ← rates; map (pair d) bonuses) current bp sc.
Proof.
  induction rates as [|d rates IH]; intros current bp sc Hsame; [reflexivity|].
  cbn [for_demcoin_rate mbind list_bind]. rewrite sweep_app.
  rewrite (for_bonus_sweep self d bonuses current bp sc Hsame).
  destruct (sweep self (map (pair d) bonuses) current bp sc) as [[[bp' sc']|e] current'] eqn:E;
    [|reflexivity].
  apply IH. eapply sweep_same_population; [exact Hsame|exact E].
Qed.

(** [optimize_parameters] is the sweep over the 16 grid points. *)
Lemma optimize_parameters_sweep self :
  optimize_parameters self
  = match sweep self grid self None neg_infinity with
    | (Ok (best_params, _), current) => (Ok best_params, current)
    | (Raised e, current) => (Raised e, current)
    end.
Proof.
  unfold optimize_parameters.
  rewrite (for_demcoin_rate_sweep self demcoin_rates self None neg_infinity
             (same_population_refl self)).
  reflexivity.
Qed.

(** On a non-empty population no run of the sweep raises, and the object is
    left with the incentives tried last. *)
Lemma sweep_runs self :
  length (citizens self) = num_citizens self ->
  0 < num_citizens self ->
  forall ps current bp sc,
    exists bp' sc',
      sweep self ps current bp sc
      = (Ok (bp', sc'),
         match last ps with
         | Some (d, b) => set_incentives self d b
         | None => current
         end).
Proof.
  intros Hcs Hn. induction ps as [|[d b] ps IH]; intros current bp sc; simpl.
  - eauto.
  - destruct (simulate_one_round_closed (set_incentives self d b) Hcs Hn)
      as (m & _ & _ & -> & _).
    rewrite last_cons.
    case_if; edestruct IH as (bp' & sc' & ->); exists bp', sc';
      destruct (last ps) as [[]|]; reflexivity.
Qed.



End Optimizer.

Section OptimizerResults.
Implicit Types (self : DemCoinSimulator float).



(** C5, amended.  [optimize_parameters] does not restore the two attributes
    it assigns: when it returns (as it does on every non-empty population),
    [demcoin_per_hour] is 25 and [success_bonus] is 200, the values tried
    last, whatever they were before; the other attributes are unchanged. *)
Theorem optimize_parameters_leaves_last_tried self :
  length (citizens self) = num_citizens self ->
  0 < num_citizens self ->
  exists best self',
    optimize_parameters self = (Ok best, self') /\
    demcoin_per_hour self' = 25%float /\
    success_bonus self' = 200%float /\
    num_citizens self' = num_citizens self /\
    time_cost self' = time_cost self /\
    quality_threshold self' = quality_threshold self /\
    citizens self' = citizens self.
Proof.
  intros Hcs Hn. rewrite optimize_parameters_sweep.
  destruct (sweep_runs self Hcs Hn grid self None neg_infinity) as (bp' & sc' & ->).
  change (last grid) with (Some (25%float, 200%float)).
  eexists _, _. split; [reflexivity|]. repeat split.
Qed.


End OptimizerResults.

(** ** Where the specification and the program part *)

(** C1 fails as stated.  Under the default incentives, with 1001 citizens,
    the first pass marks citizen 0 only; the rate moves from 0 to 1/1001,
    which is below the tolerance, so the solver stops and reports one
    participant, while at the rate it reports (as a fraction or as the
    percentage of the result) two citizens prefer to participate. *)
Lemma reported_count_differs_at_reported_rate :
  exists rate participating result,
    equilibrium near_fixed_point = Ok (rate, participating, Some 0) /\
    simulate_one_round near_fixed_point = Ok result /\
    rate = (1 / 1001)%float /\
    participation_rate result = (rate * 100)%float /\
    num_participating result = 1 /\
    count_preferring near_fixed_point rate = 2 /\
    count_preferring near_fixed_point (participation_rate result) = 2.
Proof.
  exists (1 / 1001)%float, (best_response near_fixed_point 0%float).
  eexists {| participation_rate := _; num_participating := _;
             avg_quality := _; converged_iteration := _ |}.
  split; [vm_compute; reflexivity|].
  split; [vm_compute; reflexivity|].
  split; [reflexivity|].
  repeat split; vm_compute; reflexivity.
Qed.



(** C5 fails as stated.  An object created with the incentives 15 and 100
    holds 25 and 200 after the sweep. *)
Lemma optimize_parameters_does_not_restore :
  demcoin_per_hour lone_participant = 15%float /\
  success_bonus lone_participant = 100%float /\
  exists best self',
    optimize_parameters lone_participant = (Ok (Some best), self') /\
    demcoin_per_hour self' = 25%float /\
    success_bonus self' = 200%float /\
    PrimFloat.eqb (demcoin_per_hour self') (demcoin_per_hour lone_participant) = false /\
    PrimFloat.eqb (success_bonus self') (success_bonus lone_participant) = false.
Proof.
  split; [reflexivity|]. split; [reflexivity|].
  eexists {| bp_demcoin_per_hour := _; bp_success_bonus := _; bp_result := _ |},
          (set_incentives lone_participant 25%float 200%float).
  split; [vm_compute; reflexivity|].
  repeat split; vm_compute; reflexivity.
Qed.

(** ** The results at concrete populations *)

Lemma num_participating_counts_last_pass_at_lone_participant :
  length (citizens lone_participant) = num_citizens lone_participant /\
  0 < num_citizens lone_participant /\
  exists rate participating m result,
    equilibrium lone_participant = Ok (rate, participating, Some m) /\
    simulate_one_round lone_participant = Ok result /\
    converged_iteration result = S m /\
    participation_rate result = (rate * r_of_int 100)%A /\
    rate = rate_after lone_participant (S m) /\
    num_participating result = count_preferring lone_participant (rate_after lone_participant m) /\
    rate = (r_of_int (num_participating result) / r_of_int (num_citizens lone_participant))%A /\
    (rate_after lone_participant m = rate ->
     num_participating result = count_preferring lone_participant rate).
Proof.
  split; [reflexivity|]. split; [apply Nat.lt_0_1|].
  apply (num_participating_counts_last_pass lone_participant); [reflexivity|apply Nat.lt_0_1].
Defined.



Lemma optimize_parameters_leaves_last_tried_at_lone_participant :
  length (citizens lone_participant) = num_citizens lone_participant /\
  0 < num_citizens lone_participant /\
  exists best self',
    optimize_parameters lone_participant = (Ok best, self') /\
    demcoin_per_hour self' = 25%float /\
    success_bonus self' = 200%float /\
    num_citizens self' = num_citizens lone_participant /\
    time_cost self' = time_cost lone_participant /\
    quality_threshold self' = quality_threshold lone_participant /\
    citizens self' = citizens lone_participant.
Proof.
  split; [reflexivity|]. split; [apply Nat.lt_0_1|].
  apply (optimize_parameters_leaves_last_tried lone_participant);
    [reflexivity|apply Nat.lt_0_1].
Defined.



Lemma simulate_one_round_stops_within_cap_at_lone_participant :
  length (citizens lone_participant) = num_citizens lone_participant /\
  0 < num_citizens lone_participant /\
  exists result,
    simulate_one_round lone_participant = Ok result /\
    1 <= converged_iteration result <= max_iterations /\
    max_iterations = 20 /\
    participation_rate result
    = (rate_after lone_participant (converged_iteration result) * r_of_int 100)%A /\
    (forall j, S j < converged_iteration result -> converged_at lone_participant j = false) /\
    (converged_iteration result < max_iterations ->
     converged_at lone_participant (converged_iteration result - 1) = true).
Proof.
  split; [reflexivity|]. split; [apply Nat.lt_0_1|].
  apply (simulate_one_round_stops_within_cap lone_participant);
    [reflexivity|apply Nat.lt_0_1].
Defined.

Lemma avg_quality_floors_divisor_at_lone_participant :
  ArithLaws float /\
  length (citizens lone_participant) = num_citizens lone_participant /\
  0 < num_citizens lone_participant /\
  exists rate participating iteration result,
    equilibrium lone_participant = Ok (rate, participating, iteration) /\
    simulate_one_round lone_participant = Ok result /\
    num_participating result = sum_bool participating /\
    avg_quality result
    = (quality_total (citizens lone_participant) participating (r_of_int 0)
       / r_of_int (Nat.max (num_participating result) 1))%A /\
    (0 < num_participating result ->
     avg_quality result
     = (quality_total (citizens lone_participant) participating (r_of_int 0)
        / r_of_int (num_participating result))%A) /\
    (num_participating result = 0 -> avg_quality result = r_of_int 0) /\
    (forall (x : float) k, truediv x (Nat.max k 1) = Ok (x / r_of_int (Nat.max k 1))%A).
Proof.
  split; [exact float_laws|]. split; [reflexivity|]. split; [apply Nat.lt_0_1|].
  apply (avg_quality_floors_divisor (ArithLaws0 := float_laws) lone_participant);
    [reflexivity|apply Nat.lt_0_1].
Defined.

(** * Further results *)

(** ** The population and the passes, for any sizes *)

Section Sizes.
Context {R : Type} `{Arith R}.
Implicit Types (self : DemCoinSimulator R) (rate : R) (cs : list (Citizen R)).


(** A pass that runs out of entries of [participating] raises. *)
Lemma for_citizens_beyond self rate cs :
  forall i participating changed,
    i <= length participating ->
    length participating < i + length cs ->
    for_citizens self rate i cs participating changed = Raised IndexError.
Proof.
  induction cs as [|c cs IH]; intros i p ch Hi Hlen; simpl in *; [lia|].
  destruct (p !! i) as [b|] eqn:Hb; [|reflexivity].
  apply lookup_lt_Some in Hb.
  destruct (negb _); apply IH; rewrite ?length_insert; lia.
Qed.

(** When [num_citizens] is smaller than the population,
    [simulate_one_round] raises [IndexError]: the first pass indexes
    [participating], which has [num_citizens] entries, by a citizen's
    position. *)
Lemma short_participating_raises_IndexError self :
  num_citizens self < length (citizens self) ->
  simulate_one_round self = Raised IndexError.
Proof.
  intros Hlt. unfold simulate_one_round, equilibrium. simpl.
  rewrite for_citizens_beyond; [reflexivity|lia|].
  rewrite length_replicate. lia.
Qed.

(** A pass over a [participating] that is long enough rewrites the entries
    the citizens index and keeps the others. *)
Lemma for_citizens_within self rate cs :
  forall i participating changed,
    i + length cs <= length participating ->
    exists changed',
      for_citizens self rate i cs participating changed
      = Ok (take i participating ++ map (prefers_participation self rate) cs
            ++ drop (i + length cs) participating, changed').
Proof.
  induction cs as [|c cs IH]; intros i p ch Hlen; simpl in *.
  - exists ch. rewrite Nat.add_0_r, take_drop. reflexivity.
  - destruct (lookup_lt_is_Some_2 p i ltac:(lia)) as [b Hb].
    rewrite Hb. fold (prefers_participation self rate c).
    set (should := prefers_participation self rate c).
    replace (i + S (length cs)) with (S i + length cs) by lia.
    destruct (negb (Bool.eqb should b)) eqn:E.
    + destruct (IH (S i) (<[i:=should]> p) true) as [ch' ->].
      { rewrite length_insert. lia. }
      exists ch'. f_equal. f_equal.
      rewrite (take_S_r (<[i:=should]> p) i should)
        by (apply list_lookup_insert_eq; lia).
      rewrite take_insert_ge by lia. rewrite drop_insert_lt by lia.
      rewrite <- app_assoc. reflexivity.
    + apply negb_false_iff, Bool.eqb_prop in E. subst b.
      destruct (IH (S i) p ch ltac:(lia)) as [ch' ->].
      exists ch'. f_equal. f_equal.
      rewrite (take_S_r p i should Hb), <- app_assoc. reflexivity.
Qed.

Lemma sum_bool_app (l l' : list bool) : sum_bool (l ++ l') = sum_bool l + sum_bool l'.
Proof. induction l as [|b l IH]; simpl; [reflexivity|]. rewrite IH. lia. Qed.

Lemma sum_bool_padded self (marks : list bool) : sum_bool (padded self marks) = sum_bool marks.
Proof. unfold padded. rewrite sum_bool_app, sum_bool_replicate_false. lia. Qed.

Lemma drop_padded self (marks : list bool) :
  length marks = length (citizens self) ->
  drop (length (citizens self)) (padded self marks)
  = replicate (num_citizens self - length (citizens self)) false.
Proof. intros Hlen. unfold padded. rewrite <- Hlen. apply drop_app_length. Qed.

Lemma length_padded self (marks : list bool) :
  length marks = length (citizens self) ->
  length (citizens self) <= num_citizens self ->
  length (padded self marks) = num_citizens self.
Proof. intros Hlen Hle. unfold padded. rewrite length_app, length_replicate. lia. Qed.

Lemma for_citizens_padded self rate participating :
  length participating = num_citizens self ->
  drop (length (citizens self)) participating
  = replicate (num_citizens self - length (citizens self)) false ->
  length (citizens self) <= num_citizens self ->
  exists changed,
    for_citizens self rate 0 (citizens self) participating false
    = Ok (padded self (best_response self rate), changed).
Proof.
  intros Hlen Hdrop Hle.
  destruct (for_citizens_within self rate (citizens self) 0 participating false
              ltac:(simpl; lia)) as [ch Hch].
  exists ch. rewrite Hch, take_0. simpl. rewrite Hdrop. reflexivity.
Qed.

Lemma int_truediv_pos (k n : nat) :
  0 < n -> int_truediv k n = Ok (r_of_int k / r_of_int n)%A.
Proof. intros Hn. destruct n; [lia|reflexivity]. Qed.

(** The iteration loop when [num_citizens] is at least the population. *)
Lemma for_iteration_padded self :
  length (citizens self) <= num_citizens self ->
  0 < num_citizens self ->
  forall n start last rate participating,
    0 < n ->
    length participating = num_citizens self ->
    drop (length (citizens self)) participating
    = replicate (num_citizens self - length (citizens self)) false ->
    exists m,
      m < n /\
      for_iteration self (seq start n) last rate participating
      = Ok (Nat.iter (S m) (next_rate self) rate,
            padded self (best_response self (Nat.iter m (next_rate self) rate)),
            Some (start + m)) /\
      (forall j, j < m -> stalled self (Nat.iter j (next_rate self) rate) = false) /\
      (S m < n -> stalled self (Nat.iter m (next_rate self) rate) = true).
Proof.
  intros Hle Hpos. induction n as [|n IH]; intros start last rate p Hn Hlen Hdrop; [lia|].
  simpl seq. simpl for_iteration.
  destruct (for_citizens_padded self rate p Hlen Hdrop Hle) as [ch ->].
  simpl. rewrite sum_bool_padded, (int_truediv_pos _ _ Hpos). simpl.
  change (r_of_int (sum_bool (best_response self rate)) / r_of_int (num_citizens self))%A
    with (next_rate self rate).
  fold (stalled self rate).
  destruct (stalled self rate) eqn:Est.
  - exists 0. rewrite Nat.add_0_r.
    split; [lia|]. split; [reflexivity|]. split; [intros; lia|auto].
  - destruct n as [|n'].
    + exists 0. rewrite Nat.add_0_r.
      split; [lia|]. split; [reflexivity|]. split; intros; lia.
    + destruct (IH (S start) (Some start) (next_rate self rate)
                  (padded self (best_response self rate)))
        as (m & Hm & Hrun & Hbefore & Hat); [lia| | |].
      { apply length_padded; [apply length_best_response|lia]. }
      { apply drop_padded, length_best_response. }
      exists (S m). split; [lia|]. split; [|split].
      * rewrite Hrun.
        rewrite <- !(Nat.iter_succ_r _ (next_rate self)), Nat.add_succ_r. reflexivity.
      * intros [|j] Hj; [exact Est|].
        rewrite Nat.iter_succ_r. apply Hbefore. lia.
      * intros Hlt. rewrite Nat.iter_succ_r. apply Hat. lia.
Qed.

Lemma quality_sum_within cs :
  forall i participating acc,
    i + length cs <= length participating ->
    quality_sum i cs participating acc = Ok (quality_total cs (drop i participating) acc).
Proof.
  induction cs as [|c cs IH]; intros i p acc Hlen; simpl in *.
  - destruct (drop i p); reflexivity.
  - destruct (lookup_lt_is_Some_2 p i ltac:(lia)) as [b Hb].
    rewrite Hb, (drop_S _ _ _ Hb). simpl. apply IH. lia.
Qed.

Lemma quality_total_app cs :
  forall (marks extra : list bool) acc,
    length marks = length cs ->
    quality_total cs (marks ++ extra) acc = quality_total cs marks acc.
Proof.
  induction cs as [|c cs IH]; intros [|b marks] extra acc Hlen; simpl in *;
    try discriminate.
  - destruct extra; reflexivity.
  - apply IH. lia.
Qed.

Lemma quality_total_padded self (marks : list bool) acc :
  length marks = length (citizens self) ->
  quality_total (citizens self) (padded self marks) acc
  = quality_total (citizens self) marks acc.
Proof. intros Hlen. unfold padded. apply quality_total_app, Hlen. Qed.

(** [simulate_one_round] whenever [num_citizens] is positive and at least
    the population. *)
Lemma simulate_one_round_padded self :
  length (citizens self) <= num_citizens self ->
  0 < num_citizens self ->
  exists m,
    m < max_iterations /\
    equilibrium self
    = Ok (rate_after self (S m), padded self (best_response self (rate_after self m)),
          Some m) /\
    simulate_one_round self
    = Ok {| participation_rate := (rate_after self (S m) * r_of_int 100)%A;
            num_participating := count_preferring self (rate_after self m);
            avg_quality :=
              (quality_total (citizens self) (best_response self (rate_after self m))
                 (r_of_int 0)
               / r_of_int (Nat.max (count_preferring self (rate_after self m)) 1))%A;
            converged_iteration := S m |} /\
    (forall j, j < m -> converged_at self j = false) /\
    (S m < max_iterations -> converged_at self m = true).
Proof.
  intros Hle Hpos.
  destruct (for_iteration_padded self Hle Hpos max_iterations 0 None (r_of_int 0)
              (replicate (num_citizens self) false))
    as (m & Hm & Hrun & Hbefore & Hat).
  { unfold max_iterations. lia. }
  { apply length_replicate. }
  { rewrite drop_replicate. reflexivity. }
  exists m. split; [exact Hm|]. split; [exact Hrun|]. split; [|split].
  - unfold simulate_one_round, equilibrium. rewrite Hrun. simpl.
    rewrite quality_sum_within
      by (rewrite length_padded; [simpl; exact Hle|apply length_best_response|exact Hle]).
    simpl. rewrite drop_0.
    rewrite quality_total_padded by apply length_best_response.
    rewrite !sum_bool_padded, truediv_max. simpl.
    rewrite Nat.add_1_r. reflexivity.
  - intros j Hj. apply Hbefore, Hj.
  - intros Hlt. apply Hat, Hlt.
Qed.

End Sizes.

Section Outcomes.
Context {R : Type} `{Arith R}.
Implicit Types (self : DemCoinSimulator R) (rate : R) (cs : list (Citizen R)).

Lemma no_citizens_raises_ZeroDivisionError self :
  num_citizens self = 0 -> citizens self = [] ->
  simulate_one_round self = Raised ZeroDivisionError.
Proof.
  intros Hzero Hnil. unfold simulate_one_round, equilibrium. simpl.
  rewrite Hnil. simpl. rewrite Hzero. reflexivity.
Qed.

(** What [simulate_one_round] raises depends on the sizes only. *)
Lemma simulate_one_round_raises self e :
  simulate_one_round self = Raised e ->
  forall self',
    num_citizens self' = num_citizens self ->
    citizens self' = citizens self ->
    simulate_one_round self' = Raised e.
Proof.
  intros Hrun self' Hnum Hcit.
  destruct (Nat.lt_ge_cases (num_citizens self) (length (citizens self))) as [Hlt|Hge].
  - rewrite (short_participating_raises_IndexError self Hlt) in Hrun.
    injection Hrun as <-. apply short_participating_raises_IndexError. congruence.
  - destruct (Nat.eq_0_gt_0_cases (num_citizens self)) as [Hzero|Hpos].
    + assert (Hnil : citizens self = []).
      { destruct (citizens self); [reflexivity|simpl in Hge; lia]. }
      rewrite (no_citizens_raises_ZeroDivisionError self Hzero Hnil) in Hrun.
      injection Hrun as <-. apply no_citizens_raises_ZeroDivisionError; congruence.
    + destruct (simulate_one_round_padded self Hge Hpos) as (m & _ & _ & Hok & _).
      congruence.
Qed.


(** X3.  When [num_citizens] is positive and at least the size of the
    population (it may exceed it) the round returns; the
    entries of [participating] beyond the population are [False] at the
    end, every citizen's entry is its best response to the rate the last
    pass started from, the count reported is at most the population, and
    the rate is that count divided by [num_citizens]. *)
Theorem surplus_entries_stay_false self :
  length (citizens self) <= num_citizens self ->
  0 < num_citizens self ->
  exists rate participating m result,
    equilibrium self = Ok (rate, participating, Some m) /\
    simulate_one_round self = Ok result /\
    length participating = num_citizens self /\
    (forall i c, citizens self !! i = Some c ->
       participating !! i = Some (prefers_participation self (rate_after self m) c)) /\
    (forall i, length (citizens self) <= i < num_citizens self ->
       participating !! i = Some false) /\
    num_participating result <= length (citizens self) /\
    num_participating result = sum_bool participating /\
    rate = (r_of_int (num_participating result) / r_of_int (num_citizens self))%A.
Proof.
  intros Hle Hpos.
  destruct (simulate_one_round_padded self Hle Hpos) as (m & _ & Heq & Hrun & _).
  eexists _, _, m, _. split; [exact Heq|]. split; [exact Hrun|]. simpl.
  split; [apply length_padded; [apply length_best_response|exact Hle]|].
  split; [|split; [|split; [|split]]].
  - intros i c Hc. unfold padded.
    rewrite lookup_app_l by (rewrite length_best_response; eapply lookup_lt_Some, Hc).
    unfold best_response. rewrite list_lookup_fmap, Hc. reflexivity.
  - intros i Hi. unfold padded.
    rewrite lookup_app_r by (rewrite length_best_response; lia).
    apply lookup_replicate_2. rewrite length_best_response. lia.
  - apply count_preferring_le.
  - rewrite sum_bool_padded. reflexivity.
  - reflexivity.
Qed.

Lemma utility_study_below_gate self (c : Citizen R) d d' b rate :
  (quality_threshold self <=? skill c * r_of_int 8)%A = false ->
  calculate_utility_study (set_incentives self d b) c rate
  = calculate_utility_study (set_incentives self d' b) c rate.
Proof.
  intros Hgate. unfold calculate_utility_study.
  cbn [set_incentives quality_threshold demcoin_per_hour time_cost success_bonus].
  rewrite Hgate. reflexivity.
Qed.

Lemma for_citizens_below_gate self d d' b rate cs :
  Forall (fun c => (quality_threshold self <=? skill c * r_of_int 8)%A = false) cs ->
  forall i participating changed,
    for_citizens (set_incentives self d b) rate i cs participating changed
    = for_citizens (set_incentives self d' b) rate i cs participating changed.
Proof.
  induction 1 as [|c cs Hc _ IH]; intros i p ch; simpl; [reflexivity|].
  rewrite (utility_study_below_gate self c d d' b rate Hc).
  destruct (p !! i); [|reflexivity].
  destruct (negb _); apply IH.
Qed.

Lemma for_iteration_below_gate self d d' b :
  Forall (fun c => (quality_threshold self <=? skill c * r_of_int 8)%A = false)
    (citizens self) ->
  forall its last rate participating,
    for_iteration (set_incentives self d b) its last rate participating
    = for_iteration (set_incentives self d' b) its last rate participating.
Proof.
  intros Hgate. induction its as [|it its IH]; intros last rate p; simpl; [reflexivity|].
  rewrite (for_citizens_below_gate self d d' b rate (citizens self) Hgate).
  destruct (for_citizens _ _ _ _ _ _) as [[p' ch]|e]; simpl; [|reflexivity].
  destruct (int_truediv _ _) as [new_rate|e]; simpl; [|reflexivity].
  destruct (_ <? _)%A; [reflexivity|apply IH].
Qed.

(** X4.  The hourly reward is paid to citizens whose quality reaches the
    threshold only: when no citizen's [skill * 8] reaches
    [quality_threshold], [simulate_one_round] gives the same outcome
    whatever [demcoin_per_hour] is. *)
Theorem hourly_reward_needs_quality self (d d' b : R) :
  (forall c, c ∈ citizens self ->
     (quality_threshold self <=? skill c * r_of_int 8)%A = false) ->
  simulate_one_round (set_incentives self d b)
  = simulate_one_round (set_incentives self d' b).
Proof.
  intros Hgate. apply Forall_forall in Hgate.
  unfold simulate_one_round, equilibrium.
  cbn [set_incentives num_citizens citizens].
  rewrite (for_iteration_below_gate self d d' b Hgate). reflexivity.
Qed.

End Outcomes.

(** ** More on the solver in exact arithmetic *)


Section ExactDynamics.
Implicit Types (self : DemCoinSimulator Q) (rate : Q) (c : Citizen Q).
Local Open Scope Q_scope.
















End ExactDynamics.

(** ** More on the optimizer *)

Section OptimizerEdges.
Implicit Types (self : DemCoinSimulator float).

(** X10.  When [simulate_one_round] raises on an object,
    [optimize_parameters] raises the same exception in its first run and
    leaves the object with [demcoin_per_hour = 10] and
    [success_bonus = 50], the first grid point. *)
Theorem optimize_parameters_raises_in_first_run self e :
  simulate_one_round self = Raised e ->
  optimize_parameters self = (Raised e, set_incentives self 10%float 50%float).
Proof.
  intros Hrun. unfold optimize_parameters, demcoin_rates, bonuses. simpl.
  rewrite (simulate_one_round_raises self e Hrun (set_incentives self 10%float 50%float));
    reflexivity.
Qed.

Lemma sweep_same_self self' self ps :
  same_population self' self ->
  forall current bp sc,
    sweep self' ps current bp sc = sweep self ps current bp sc.
Proof.
  intros Hsame. induction ps as [|[d b] ps IH]; intros current bp sc; simpl; [reflexivity|].
  rewrite (set_incentives_same self' self d b Hsame).
  destruct (simulate_one_round (set_incentives self d b)) as [result|e]; [|reflexivity].
  assert (Hscore : score_of self' d result = score_of self d result).
  { unfold score_of. destruct Hsame as (_ & -> & _). reflexivity. }
  rewrite Hscore. case_if; apply IH.
Qed.

(** X11.  The sweep overwrites the two incentives before its first run:
    the outcome of [optimize_parameters], and the object it leaves, do not
    depend on the [demcoin_per_hour] and [success_bonus] the object held
    before. *)
Theorem optimize_parameters_ignores_initial_incentives self (d b : float) :
  optimize_parameters (set_incentives self d b) = optimize_parameters self.
Proof.
  rewrite !optimize_parameters_sweep.
  rewrite (sweep_same_self (set_incentives self d b) self grid
             (same_population_set self d b)).
  reflexivity.
Qed.

End OptimizerEdges.

(** ** NaN in binary64 *)

Section NotANumber.
Import SpecFloat.
Implicit Types (x y : float) (self : DemCoinSimulator float).

Lemma is_nan_Prim2SF x : is_nan x = true -> Prim2SF x = S754_nan.
Proof.
  unfold is_nan. rewrite FloatAxioms.eqb_spec, negb_true_iff. unfold SFeqb.
  destruct (Prim2SF x) as [[]|[]| |[] m e]; simpl; try discriminate; try reflexivity;
    rewrite Z.compare_refl; change (Pos.compare_cont Eq m m) with (Pos.compare m m);
    rewrite Pos.compare_refl; discriminate.
Qed.

Lemma Prim2SF_is_nan x : Prim2SF x = S754_nan -> is_nan x = true.
Proof.
  intros Hx. unfold is_nan. rewrite FloatAxioms.eqb_spec, Hx. reflexivity.
Qed.

Lemma is_nan_mul_r x y : is_nan y = true -> is_nan (x * y)%float = true.
Proof.
  intros Hy%is_nan_Prim2SF. apply Prim2SF_is_nan.
  rewrite FloatAxioms.mul_spec, Hy. unfold SF64mul, SFmul. destruct (Prim2SF x); reflexivity.
Qed.

Lemma is_nan_mul_l x y : is_nan x = true -> is_nan (x * y)%float = true.
Proof.
  intros Hx%is_nan_Prim2SF. apply Prim2SF_is_nan.
  rewrite FloatAxioms.mul_spec, Hx. reflexivity.
Qed.

Lemma is_nan_sub_r x y : is_nan y = true -> is_nan (x - y)%float = true.
Proof.
  intros Hy%is_nan_Prim2SF. apply Prim2SF_is_nan.
  rewrite FloatAxioms.sub_spec, Hy. unfold SF64sub, SFsub. destruct (Prim2SF x); reflexivity.
Qed.

Lemma is_nan_add_l x y : is_nan x = true -> is_nan (x + y)%float = true.
Proof.
  intros Hx%is_nan_Prim2SF. apply Prim2SF_is_nan.
  rewrite FloatAxioms.add_spec, Hx. reflexivity.
Qed.

Lemma is_nan_div_l x y : is_nan x = true -> is_nan (x / y)%float = true.
Proof.
  intros Hx%is_nan_Prim2SF. apply Prim2SF_is_nan.
  rewrite FloatAxioms.div_spec, Hx. reflexivity.
Qed.

(** Nothing is below NaN. *)
Lemma ltb_nan_r x y : is_nan y = true -> PrimFloat.ltb x y = false.
Proof.
  intros Hy%is_nan_Prim2SF. rewrite FloatAxioms.ltb_spec, Hy.
  unfold SFltb, SFcompare. destruct (Prim2SF x); reflexivity.
Qed.

Lemma nobody_prefers_under_nan self rate (c : Citizen float) :
  is_nan (time_cost self) = true ->
  prefers_participation self rate c = false.
Proof.
  intros Hnan. unfold prefers_participation, calculate_utility_study.
  cbn [rltb radd rsub rmul float_arith].
  apply ltb_nan_r, is_nan_add_l, is_nan_sub_r, is_nan_mul_r, Hnan.
Qed.

Lemma count_preferring_under_nan self rate :
  is_nan (time_cost self) = true -> count_preferring self rate = 0.
Proof.
  intros Hnan. unfold count_preferring, best_response.
  induction (citizens self) as [|c cs IH]; cbn [map sum_bool]; [reflexivity|].
  rewrite (nobody_prefers_under_nan self rate c Hnan), IH. reflexivity.
Qed.

Lemma sweep_under_nan self :
  length (citizens self) = num_citizens self ->
  0 < num_citizens self ->
  is_nan (time_cost self) = true ->
  forall ps current bp sc,
    sweep self ps current bp sc
    = (Ok (bp, sc),
       match last ps with
       | Some (d, b) => set_incentives self d b
       | None => current
       end).
Proof.
  intros Hcs Hn Hnan. induction ps as [|[d b] ps IH]; intros current bp sc; simpl;
    [reflexivity|].
  destruct (simulate_one_round_closed (set_incentives self d b) Hcs Hn)
    as (m & _ & _ & -> & _).
  rewrite last_cons, IH.
  match goal with |- context [(sc <? ?score)%float] =>
    assert (Hscore : PrimFloat.ltb sc score = false)
  end.
  { apply ltb_nan_r. unfold score_of. cbn [rsub rdiv rmul float_arith].
    apply is_nan_sub_r, is_nan_div_l, is_nan_mul_l, is_nan_mul_r, Hnan. }
  rewrite Hscore. rewrite IH. destruct (last ps) as [[]|]; reflexivity.
Qed.

(** X12.  With a [time_cost] that is NaN every utility of participating
    is NaN, nobody participates in any run, every score is NaN and none
    replaces [-inf]: on a non-empty population [optimize_parameters]
    returns [None], not a record, and leaves the incentives at 25 and
    200. *)
Theorem optimize_parameters_returns_None_under_nan self :
  length (citizens self) = num_citizens self ->
  0 < num_citizens self ->
  is_nan (time_cost self) = true ->
  optimize_parameters self = (Ok None, set_incentives self 25%float 200%float)
  /\ forall d b,
       exists result,
         simulate_one_round (set_incentives self d b) = Ok result /\
         num_participating result = 0 /\
         is_nan (score_of self d result) = true.
Proof.
  intros Hcs Hn Hnan. split.
  - rewrite optimize_parameters_sweep, (sweep_under_nan self Hcs Hn Hnan). reflexivity.
  - intros d b.
    destruct (simulate_one_round_closed (set_incentives self d b) Hcs Hn)
      as (m & _ & _ & -> & _).
    eexists. split; [reflexivity|]. cbn [num_participating]. split.
    + apply count_preferring_under_nan. exact Hnan.
    + unfold score_of. cbn [rsub rdiv rmul float_arith].
      apply is_nan_sub_r, is_nan_div_l, is_nan_mul_l, is_nan_mul_r, Hnan.
Qed.

End NotANumber.

Section LeastFixedPoint.
Implicit Types (self : DemCoinSimulator Q).
Local Open Scope Q_scope.


End LeastFixedPoint.

(** ** The further results at concrete populations *)

Lemma surplus_entries_stay_false_at_oversized :
  length (citizens oversized) <= num_citizens oversized /\
  0 < num_citizens oversized /\
  exists rate participating m result,
    equilibrium oversized = Ok (rate, participating, Some m) /\
    simulate_one_round oversized = Ok result /\
    length participating = num_citizens oversized /\
    (forall i c, citizens oversized !! i = Some c ->
       participating !! i = Some (prefers_participation oversized (rate_after oversized m) c)) /\
    (forall i, length (citizens oversized) <= i < num_citizens oversized ->
       participating !! i = Some false) /\
    num_participating result <= length (citizens oversized) /\
    num_participating result = sum_bool participating /\
    rate = (r_of_int (num_participating result) / r_of_int (num_citizens oversized))%A.
Proof.
  assert (Hle : length (citizens oversized) <= num_citizens oversized)
    by (apply Nat.leb_le; reflexivity).
  assert (Hpos : 0 < num_citizens oversized) by (apply Nat.ltb_lt; reflexivity).
  split; [exact Hle|]. split; [exact Hpos|].
  exact (surplus_entries_stay_false oversized Hle Hpos).
Defined.

Lemma hourly_reward_needs_quality_at_below_gate :
  (forall c, c ∈ citizens below_gate ->
     (quality_threshold below_gate <=? skill c * r_of_int 8)%A = false) /\
  simulate_one_round (set_incentives below_gate 10%float 100%float)
  = simulate_one_round (set_incentives below_gate 25%float 100%float).
Proof.
  assert (Hgate : forall c, c ∈ citizens below_gate ->
            (quality_threshold below_gate <=? skill c * r_of_int 8)%A = false).
  { intros c Hc. apply list_elem_of_In in Hc.
    destruct Hc as [<-|[<-|[]]]; reflexivity. }
  split; [exact Hgate|].
  exact (hourly_reward_needs_quality below_gate 10%float 25%float 100%float Hgate).
Defined.





Lemma optimize_parameters_raises_in_first_run_at_empty_population :
  simulate_one_round empty_population = Raised ZeroDivisionError /\
  optimize_parameters empty_population
  = (Raised ZeroDivisionError, set_incentives empty_population 10%float 50%float).
Proof.
  assert (Hrun : simulate_one_round empty_population = Raised ZeroDivisionError)
    by reflexivity.
  split; [exact Hrun|].
  exact (optimize_parameters_raises_in_first_run empty_population ZeroDivisionError Hrun).
Defined.

Lemma optimize_parameters_returns_None_under_nan_at_nan_time_cost :
  length (citizens nan_time_cost) = num_citizens nan_time_cost /\
  0 < num_citizens nan_time_cost /\
  is_nan (time_cost nan_time_cost) = true /\
  optimize_parameters nan_time_cost
  = (Ok None, set_incentives nan_time_cost 25%float 200%float) /\
  forall d b,
    exists result,
      simulate_one_round (set_incentives nan_time_cost d b) = Ok result /\
      num_participating result = 0 /\
      is_nan (score_of nan_time_cost d result) = true.
Proof.
  split; [reflexivity|]. split; [apply Nat.lt_0_1|]. split; [reflexivity|].
  apply (optimize_parameters_returns_None_under_nan nan_time_cost);
    [reflexivity|apply Nat.lt_0_1|reflexivity].
Defined.


Section OptimizerAgain.
Implicit Types (self : DemCoinSimulator float).

Lemma optimize_parameters_same_population self' self :
  same_population self' self ->
  optimize_parameters self' = optimize_parameters self.
Proof.
  intros Hsame. rewrite !optimize_parameters_sweep.
  rewrite (sweep_same_self self' self grid Hsame). reflexivity.
Qed.

(** X14.  The sweep can be repeated: run again on the object it left,
    whether it returned or raised, [optimize_parameters] has the same
    outcome and leaves the same object. *)
Theorem optimize_parameters_repeatable self :
  optimize_parameters (snd (optimize_parameters self)) = optimize_parameters self.
Proof.
  apply optimize_parameters_same_population.
  rewrite optimize_parameters_sweep.
  destruct (sweep self grid self None neg_infinity) as [[[bp sc]|e] current] eqn:E;
    simpl; eapply sweep_same_population; try exact E; apply same_population_refl.
Qed.

End OptimizerAgain.
